(** * The piezo buzzer component (src/main.py), embedded and verified

    The module drives a piezo buzzer through a board's GPIO pin: it validates
    its configuration, resolves the board among its dependencies, sounds one
    tone, plays a fixed melody, and dispatches string-keyed commands.

    The embedding follows the Python source function by function.  Every
    coroutine becomes a computation in the [Task] monad, which threads the
    sequence of calls issued to the board (and the timed waits) and carries the
    exception a call may raise.  Logging is not part of the model. *)

From Stdlib Require Import QArith Ascii.
From stdpp Require Import gmap strings list pretty.

Set Warnings "-register-all".
Local Open Scope Z_scope.

(** ** Python values *)

(** The values a command, a configuration attribute or an argument can hold.
    A [float] is a finite binary64 value, denoted by the rational it is equal
    to; infinities and NaN are outside the model.  Strings are ASCII text. *)
Inductive PyVal : Type :=
  | VNone
  | VBool (b : bool)
  | VInt (z : Z)
  | VFloat (q : Q)
  | VStr (s : string)
  | VList (l : list PyVal)
  | VDict (d : list (string * PyVal)).

(** Exceptions deriving from [Exception]: the class name and [str(e)]. *)
Record Exn : Type := MkExn { exn_class : string; exn_msg : string }.

Definition ValueError (msg : string) : Exn := MkExn "ValueError" msg.
Definition TypeError (msg : string) : Exn := MkExn "TypeError" msg.
Definition AttributeError (msg : string) : Exn := MkExn "AttributeError" msg.
Definition Exception (msg : string) : Exn := MkExn "Exception" msg.

(** What the interpreter supplies and the source does not spell out: the
    text of a float, the rounded product of two floats, and the text of a
    list or a dict. *)
Class Interpreter : Type := {
  float_repr : Q → string;
  float_mul : Q → Q → Q;
  container_repr : PyVal → string
}.

(** [type(v).__name__] *)
Definition type_name (v : PyVal) : string :=
  match v with
  | VNone => "NoneType"
  | VBool _ => "bool"
  | VInt _ => "int"
  | VFloat _ => "float"
  | VStr _ => "str"
  | VList _ => "list"
  | VDict _ => "dict"
  end.

(** [isinstance(v, (int, float))]; a [bool] is an [int]. *)
Definition is_number (v : PyVal) : bool :=
  match v with
  | VBool _ | VInt _ | VFloat _ => true
  | _ => false
  end.

(** The numeric value of a number. *)
Definition num_value (v : PyVal) : option Q :=
  match v with
  | VBool b => Some (inject_Z (if b then 1 else 0))
  | VInt z => Some (inject_Z z)
  | VFloat q => Some q
  | _ => None
  end.

(** [v <= k] and [k <= v] for a number [v] and an integer literal [k]. *)
Definition py_le_int (v : PyVal) (k : Z) : bool :=
  match num_value v with
  | Some q => Qle_bool q (inject_Z k)
  | None => false
  end.

Definition py_int_le (k : Z) (v : PyVal) : bool :=
  match num_value v with
  | Some q => Qle_bool (inject_Z k) q
  | None => false
  end.

(** Truncation towards zero, as [int(x)] does on a float. *)
Definition Qtruncate (q : Q) : Z := Z.quot (Qnum q) (Zpos (Qden q)).

(** [int(v)] on a number; the source only reaches it on numbers. *)
Definition py_int (v : PyVal) : Exn + Z :=
  match v with
  | VBool b => inr (if b then 1 else 0)
  | VInt z => inr z
  | VFloat q => inr (Qtruncate q)
  | _ => inl (TypeError ("int() argument must be a string, a bytes-like object or a real number, not '"
                          +:+ type_name v +:+ "'"))
  end.

Fixpoint string_repeat (n : nat) (s : string) : string :=
  match n with
  | O => ""
  | S n' => s +:+ string_repeat n' s
  end.

Definition default_or {A : Type} (o : option A) (d : A) : A :=
  match o with
  | Some a => a
  | None => d
  end.

Fixpoint list_repeat {A : Type} (n : nat) (l : list A) : list A :=
  match n with
  | O => []
  | S n' => l ++ list_repeat n' l
  end.

Section Formatting.
Context {interp : Interpreter}.

(** [str(v)], which is also what an f-string field [{v}] renders. *)
Definition py_str (v : PyVal) : string :=
  match v with
  | VNone => "None"
  | VBool b => if b then "True" else "False"
  | VInt z => pretty z
  | VFloat q => float_repr q
  | VStr s => s
  | VList _ | VDict _ => container_repr v
  end.

(** [v * k] for a non-negative integer literal [k]. *)
Definition py_mul_int (v : PyVal) (k : Z) : Exn + PyVal :=
  match v with
  | VBool b => inr (VInt ((if b then 1 else 0) * k))
  | VInt z => inr (VInt (z * k))
  | VFloat q => inr (VFloat (float_mul q (inject_Z k)))
  | VStr s => inr (VStr (string_repeat (Z.to_nat k) s))
  | VList l => inr (VList (list_repeat (Z.to_nat k) l))
  | VNone | VDict _ =>
      inl (TypeError ("unsupported operand type(s) for *: '" +:+ type_name v +:+ "' and 'int'"))
  end.
End Formatting.

(** Substring test, for statements of the form "the message contains ...". *)
Fixpoint is_prefix (p s : string) : bool :=
  match p, s with
  | EmptyString, _ => true
  | String a p', String b s' => bool_decide (a = b) && is_prefix p' s'
  | String _ _, EmptyString => false
  end.

Fixpoint contains (key s : string) : bool :=
  is_prefix key s ||
  match s with
  | EmptyString => false
  | String _ s' => contains key s'
  end.

(** ** The board and the task monad *)

(** What the component asks of the outside world, in the order it asks. *)
Inductive Event : Type :=
  | GpioPinByName (name : PyVal)
  | SetPwmFrequency (pin : PyVal) (hz : Z)
  | SetPwm (pin : PyVal) (duty : PyVal)
  | Sleep (secs : PyVal).

Definition Trace : Type := list Event.

(** A board answers each call, given everything issued before it, by
    succeeding ([None]) or by raising ([Some e]). *)
Record Board : Type := MkBoard { behaviour : Trace → Event → option Exn }.

(** The handle [gpio_pin_by_name] returns. *)
Record GpioPin : Type := MkPin { pin_board : Board; pin_name : PyVal }.

Inductive Outcome (A : Type) : Type :=
  | Returned (a : A)
  | Raised (e : Exn).
Arguments Returned {A} a.
Arguments Raised {A} e.

(** A coroutine: from the calls issued so far to its outcome and the calls
    issued when it ends. *)
Definition Task (A : Type) : Type := Trace → Outcome A * Trace.

Definition ret {A} (a : A) : Task A := λ tr, (Returned a, tr).
Definition raise {A} (e : Exn) : Task A := λ tr, (Raised e, tr).
Definition bind {A B} (m : Task A) (k : A → Task B) : Task B :=
  λ tr, match m tr with
        | (Returned a, tr') => k a tr'
        | (Raised e, tr') => (Raised e, tr')
        end.
(** [try: m  except Exception as e: h e] *)
Definition try_except {A} (m : Task A) (h : Exn → Task A) : Task A :=
  λ tr, match m tr with
        | (Returned a, tr') => (Returned a, tr')
        | (Raised e, tr') => h e tr'
        end.
Definition lift {A} (r : Exn + A) : Task A :=
  match r with
  | inl e => raise e
  | inr a => ret a
  end.

Declare Scope task_scope.
Delimit Scope task_scope with task.
Notation "x ← y ; z" := (bind y (λ x, z))
  (at level 20, y at level 100, z at level 200, only parsing) : task_scope.
Notation "x ;; z" := (bind x (λ _, z))
  (at level 100, z at level 200, only parsing, right associativity) : task_scope.
Local Open Scope task_scope.

(** A call to the board: it is recorded, then succeeds or raises. *)
Definition call (b : Board) (ev : Event) : Task unit :=
  λ tr, match behaviour b tr ev with
        | None => (Returned tt, tr ++ [ev])
        | Some e => (Raised e, tr ++ [ev])
        end.

Definition gpio_pin_by_name (b : Board) (name : PyVal) : Task GpioPin :=
  call b (GpioPinByName name) ;; ret (MkPin b name).
Definition set_pwm_frequency (p : GpioPin) (hz : Z) : Task unit :=
  call (pin_board p) (SetPwmFrequency (pin_name p) hz).
Definition set_pwm (p : GpioPin) (duty : PyVal) : Task unit :=
  call (pin_board p) (SetPwm (pin_name p) duty).
(** [asyncio.sleep(secs)]: the wait is recorded and elapses.  Cancellation
    of the task is not an [Exception] and is not modelled. *)
Definition sleep (secs : PyVal) : Task unit :=
  λ tr, (Returned tt, tr ++ [Sleep secs]).

(** ** The component *)

(** A dependency handed to the component: a board, or a resource of another
    class. *)
Inductive Resource : Type :=
  | BoardResource (b : Board)
  | OtherResource (class_name : string).

(** [self.pin] and [self.board].  [self.board] first holds the configured
    attribute, a plain value, and then what the dependencies give for it
    ([inl VNone] when they give nothing). *)
Record Piezo : Type := MkPiezo { pin : PyVal; board : PyVal + Resource }.

(** [self.board.gpio_pin_by_name]: the attribute exists on a board only. *)
Definition board_of (self : Piezo) : Task Board :=
  match board self with
  | inr (BoardResource b) => ret b
  | inr (OtherResource c) =>
      raise (AttributeError ("'" +:+ c +:+ "' object has no attribute 'gpio_pin_by_name'"))
  | inl v =>
      raise (AttributeError ("'" +:+ type_name v +:+ "' object has no attribute 'gpio_pin_by_name'"))
  end.

Section Component.
Context {interp : Interpreter}.

Definition sound_buzzer_body (self : Piezo) (frequency duration duty_cycle : PyVal)
  : Task string :=
  (if negb (is_number frequency) || py_le_int frequency 0
   then raise (ValueError ("Frequency must be a positive number. Got: " +:+ py_str frequency))
   else ret tt) ;;
  (if negb (is_number duration) || py_le_int duration 0
   then raise (ValueError ("Duration must be a positive number. Got: " +:+ py_str duration))
   else ret tt) ;;
  (if negb (is_number duty_cycle) || negb (py_int_le 0 duty_cycle && py_le_int duty_cycle 1)
   then raise (ValueError ("Duty cycle must be between 0 and 1. Got: " +:+ py_str duty_cycle))
   else ret tt) ;;
  frequency ← lift (py_int frequency);
  b ← board_of self;
  gpio_pin ← gpio_pin_by_name b (pin self);
  set_pwm_frequency gpio_pin frequency ;;
  set_pwm gpio_pin duty_cycle ;;
  sleep duration ;;
  set_pwm gpio_pin (VFloat 0) ;;
  ret "Buzzer sounded successfully.".

(** [timeout] is the keyword argument of the source; the body does not read
    it. *)
Definition sound_buzzer (self : Piezo) (frequency duration duty_cycle : PyVal)
    (timeout : option PyVal) : Task string :=
  try_except (sound_buzzer_body self frequency duration duty_cycle)
    (λ e, ret ("Error in sound_buzzer: " +:+ exn_msg e)).

(** The melody, in Hz, and its rhythm, in seconds: the float literals 0.4
    and 0.8 are the binary64 values nearest to them. *)
Definition melody : list Z :=
  [622; 740; 784; 740; 622; 784; 740; 622; 740; 784; 622; 740; 622; 587; 622; 659;
   740; 622; 740; 784; 622; 587].

Definition float_0_4 : Q := 3602879701896397 # 9007199254740992.
Definition float_0_8 : Q := 3602879701896397 # 4503599627370496.
Definition float_0_1 : Q := 3602879701896397 # 36028797018963968.
Definition float_0_5 : Q := 1 # 2.

Definition rhythm : list Q :=
  [float_0_4; float_0_4; float_0_4; float_0_4; float_0_4; float_0_4; float_0_8;
   float_0_4; float_0_4; float_0_4; float_0_4; float_0_4; float_0_4; float_0_4;
   float_0_4; float_0_8;
   float_0_4; float_0_4; float_0_4; float_0_4; float_0_4; float_0_8].

(** [for x in l: body x] *)
Fixpoint for_each {A} (l : list A) (body : A → Task unit) : Task unit :=
  match l with
  | [] => ret tt
  | x :: l' => body x ;; for_each l' body
  end.

(** The body of the loop over [zip(melody, rhythm)]; [int(frequency)] is
    the identity on the integers of [melody]. *)
Definition play_note (gpio_pin : GpioPin) (note : Z * Q) : Task unit :=
  let '(frequency, duration) := note in
  set_pwm_frequency gpio_pin frequency ;;
  set_pwm gpio_pin (VFloat float_0_5) ;;
  sleep (VFloat duration) ;;
  set_pwm gpio_pin (VFloat 0) ;;
  sleep (VFloat float_0_1).

Definition play_harry_potter (self : Piezo) : Task unit :=
  try_except
    (b ← board_of self;
     gpio_pin ← gpio_pin_by_name b (pin self);
     for_each (zip melody rhythm) (play_note gpio_pin))
    (λ e, ret tt).

(** [args.get(key, default)]; [args] need not be a dict. *)
Fixpoint assoc_get (d : list (string * PyVal)) (key : string) : option PyVal :=
  match d with
  | [] => None
  | (k, v) :: d' => if decide (k = key) then Some v else assoc_get d' key
  end.

Definition dict_get (args : PyVal) (key : string) (default : PyVal) : Exn + PyVal :=
  match args with
  | VDict d => inr (default_or (assoc_get d key) default)
  | _ => inl (AttributeError ("'" +:+ type_name args +:+ "' object has no attribute 'get'"))
  end.

(** One turn of the loop of [do_command], on the entry [name: args]. *)
Definition do_command_entry (self : Piezo) (result : gmap string string)
    (name : string) (args : PyVal) : Task (gmap string string) :=
  if decide (name = "sound_buzzer") then
    try_except
      (frequency ← lift (dict_get args "frequency" (VInt 1000));
       duration ← lift (dict_get args "duration" (VFloat 1));
       duty_cycle ← lift (dict_get args "duty_cycle" (VFloat float_0_5));
       sound_buzzer self frequency duration duty_cycle None ;;
       percent ← lift (py_mul_int duty_cycle 100);
       ret (<["sound_buzzer" :=
                "Buzzer activated: " +:+ py_str frequency +:+ "Hz for " +:+ py_str duration
                +:+ "s with " +:+ py_str percent +:+ "% duty cycle."]> result))
      (λ e, ret (<["sound_buzzer" := "Error: " +:+ exn_msg e]> result))
  else if decide (name = "play_harry_potter") then
    try_except
      (play_harry_potter self ;;
       ret (<["play_harry_potter" := "Played Harry Potter theme song."]> result))
      (λ e, ret (<["play_harry_potter" := "Error: " +:+ exn_msg e]> result))
  else
    ret (<[name := "Unknown command: " +:+ name]> result).

Fixpoint do_command_loop (self : Piezo) (command : list (string * PyVal))
    (result : gmap string string) : Task (gmap string string) :=
  match command with
  | [] => ret result
  | (name, args) :: command' =>
      result' ← do_command_entry self result name args;
      do_command_loop self command' result'
  end.

(** [command] lists the entries of the dict in insertion order. *)
Definition do_command (self : Piezo) (command : list (string * PyVal))
    (timeout : option PyVal) : Task (gmap string string) :=
  do_command_loop self command ∅.
End Component.


(** ** Configuration *)

(** A protobuf [Value]: exactly one kind is set. *)
Inductive PbValue : Type :=
  | NullValue
  | NumberValue (q : Q)
  | StringValue (s : string)
  | BoolValue (b : bool)
  | StructValue (fields : list (string * PbValue))
  | ListValue (values : list PbValue).

(** [v.HasField("string_value")] *)
Definition has_string_value (v : PbValue) : bool :=
  match v with
  | StringValue _ => true
  | _ => false
  end.

(** [v.string_value], empty when another kind is set. *)
Definition string_value (v : PbValue) : string :=
  match v with
  | StringValue s => s
  | _ => ""
  end.

Definition is_digit_char (c : ascii) : bool :=
  (48 <=? nat_of_ascii c)%nat && (nat_of_ascii c <=? 57)%nat.

Fixpoint all_digits (s : string) : bool :=
  match s with
  | EmptyString => true
  | String c s' => is_digit_char c && all_digits s'
  end.

(** [s.isdigit()]: at least one character, and digits only. *)
Definition isdigit (s : string) : bool :=
  match s with
  | EmptyString => false
  | String _ _ => all_digits s
  end.

Definition pin_error : Exn :=
  Exception "Piezo pin must be configured as a numeric string (digits only).".
Definition board_error : Exn :=
  Exception "Board name must be configured as a string.".

(** [fields] is [config.attributes.fields]. *)
Definition validate_config (fields : gmap string PbValue) : Exn + list string :=
  let piezo_pin_checked : Exn + unit :=
    match fields !! "piezo_pin" with
    | Some v =>
        if negb (has_string_value v) || negb (isdigit (string_value v))
        then inl pin_error
        else inr tt
    | None => inr tt
    end in
  match piezo_pin_checked with
  | inl e => inl e
  | inr _ =>
      match fields !! "board" with
      | Some v => if negb (has_string_value v) then inl board_error else inr []
      | None => inr []
      end
  end.

(** A resource name, as the SDK's protobuf message has it. *)
Record ResourceName : Type := MkResourceName {
  rn_namespace : string;
  rn_type : string;
  rn_subtype : string;
  rn_name : string
}.

Global Instance ResourceName_eq_dec : EqDecision ResourceName.
Proof. solve_decision. Defined.

Global Instance ResourceName_countable : Countable ResourceName.
Proof.
  refine (inj_countable'
            (λ r, (rn_namespace r, rn_type r, rn_subtype r, rn_name r))
            (λ t, let '(a, b, c, d) := t in MkResourceName a b c d) _).
  by intros [].
Defined.

(** What the SDK supplies: the resource name of the board called [name]
    ([Board.get_resource_name], which may reject its argument) and the text
    of a resource name. *)
Class Sdk : Type := {
  get_resource_name : PyVal → Exn + ResourceName;
  resource_name_str : ResourceName → string
}.

(** [struct_to_dict] on one value. *)
Fixpoint value_to_py (v : PbValue) : PyVal :=
  match v with
  | NullValue => VNone
  | NumberValue q => VFloat q
  | StringValue s => VStr s
  | BoolValue b => VBool b
  | StructValue fields => VDict (map (λ kv, (fst kv, value_to_py (snd kv))) fields)
  | ListValue values => VList (map value_to_py values)
  end.

(** [struct_to_dict(config.attributes).get(key)] *)
Definition attrs_get (attributes : gmap string PbValue) (key : string) : PyVal :=
  default_or (value_to_py <$> attributes !! key) VNone.

Definition board_not_found {sdk : Sdk} (rn : ResourceName) : Exn :=
  Exception ("Board '" +:+ resource_name_str rn +:+ "' not found during reconfiguration.").

(** [reconfigure] assigns [self.pin] and [self.board] as it goes: the result
    is the component as it is left, and whether the call returned or raised.
    The closing call to the base class only logs. *)
Definition reconfigure {sdk : Sdk} (self : Piezo) (attributes : gmap string PbValue)
    (dependencies : gmap ResourceName Resource) : Piezo * (Exn + unit) :=
  let self := MkPiezo (attrs_get attributes "piezo_pin") (board self) in
  let self := MkPiezo (pin self) (inl (attrs_get attributes "board")) in
  match get_resource_name (attrs_get attributes "board") with
  | inl e => (self, inl e)
  | inr boardResourceName =>
      match dependencies !! boardResourceName with
      | Some (BoardResource b) =>
          (MkPiezo (pin self) (inr (BoardResource b)), inr tt)
      | Some (OtherResource c) =>
          (MkPiezo (pin self) (inr (OtherResource c)), inl (board_not_found boardResourceName))
      | None =>
          (MkPiezo (pin self) (inl VNone), inl (board_not_found boardResourceName))
      end
  end.

(** ** Vocabulary of the statements *)

(** A number that is strictly positive; a number that is not. *)
Definition positive_number (v : PyVal) : Prop :=
  ∃ q, num_value v = Some q ∧ (0 < q)%Q.
Definition nonpositive_number (v : PyVal) : Prop :=
  ∃ q, num_value v = Some q ∧ (q <= 0)%Q.

(** A number within [0, 1]; a number outside of it. *)
Definition in_unit_interval (v : PyVal) : Prop :=
  ∃ q, num_value v = Some q ∧ (0 <= q)%Q ∧ (q <= 1)%Q.
Definition outside_unit_interval (v : PyVal) : Prop :=
  ∃ q, num_value v = Some q ∧ ((q < 0)%Q ∨ (1 < q)%Q).

(** A board none of whose calls fails. *)
Definition reliable (b : Board) : Prop := ∀ tr ev, behaviour b tr ev = None.

(** The component holds a board. *)
Definition configured_with (self : Piezo) (b : Board) : Prop :=
  board self = inr (BoardResource b).

(** The calls and the wait of one tone, in order. *)
Definition tone_calls (self : Piezo) (hz : Z) (duration duty_cycle : PyVal) : Trace :=
  [GpioPinByName (pin self); SetPwmFrequency (pin self) hz; SetPwm (pin self) duty_cycle;
   Sleep duration; SetPwm (pin self) (VFloat 0)].

(** The calls and the waits of one note of the melody. *)
Definition note_cycle (self : Piezo) (note : Z * Q) : Trace :=
  [SetPwmFrequency (pin self) note.1; SetPwm (pin self) (VFloat float_0_5);
   Sleep (VFloat note.2); SetPwm (pin self) (VFloat 0); Sleep (VFloat float_0_1)].

(** How the outside world answers an event: a wait always elapses, a call
    is answered by the board. *)
Definition answer (b : Board) (tr : Trace) (ev : Event) : option Exn :=
  match ev with
  | Sleep _ => None
  | _ => behaviour b tr ev
  end.

(** The first argument check of [sound_buzzer] that rejects the call, by the
    word its message starts with. *)
Inductive rejected : PyVal → PyVal → PyVal → string → Prop :=
  | rejected_frequency f d dc :
      nonpositive_number f → rejected f d dc "Frequency"
  | rejected_duration f d dc :
      positive_number f → nonpositive_number d → rejected f d dc "Duration"
  | rejected_duty_cycle f d dc :
      positive_number f → positive_number d → outside_unit_interval dc →
      rejected f d dc "Duty cycle".

(** A digits-only string: not empty, every character between 0 and 9. *)
Definition digits_only (s : string) : Prop :=
  s ≠ "" ∧ ∀ c, c ∈ String.list_ascii_of_string s → (48 ≤ nat_of_ascii c ≤ 57)%nat.

(** What [do_command] records for a name it does not know. *)
Definition unknown_command (name : string) : string := "Unknown command: " +:+ name.

(** The attribute [key] is present and is not a digits-only string; it is
    present and is not a string. *)
Definition not_digit_string (fields : gmap string PbValue) (key : string) : Prop :=
  ∃ v, fields !! key = Some v ∧ ¬ ∃ s, v = StringValue s ∧ digits_only s.
Definition not_string (fields : gmap string PbValue) (key : string) : Prop :=
  ∃ v, fields !! key = Some v ∧ ¬ ∃ s, v = StringValue s.

(** The two checks of [validate_config], each on its own. *)
Definition pin_accepted (fields : gmap string PbValue) : bool :=
  match fields !! "piezo_pin" with
  | Some v => has_string_value v && isdigit (string_value v)
  | None => true
  end.
Definition board_accepted (fields : gmap string PbValue) : bool :=
  match fields !! "board" with
  | Some v => has_string_value v
  | None => true
  end.

(** What the board may be asked without harm: a frequency that is not
    negative, a duty cycle within [0, 1]. *)
Definition safe_event (ev : Event) : Prop :=
  match ev with
  | SetPwmFrequency _ hz => 0 ≤ hz
  | SetPwm _ duty => in_unit_interval duty
  | GpioPinByName _ | Sleep _ => True
  end.

(** The calls and the waits of the whole melody, in order. *)
Definition melody_calls (self : Piezo) : Trace :=
  GpioPinByName (pin self) :: concat (map (note_cycle self) (zip melody rhythm)).

(** How a run of board calls ends on any board: it went through, or it
    stopped at the first call the board refused. *)
Definition ran_or_stopped {A : Type} (b : Board) (tr : Trace) (whole : Trace)
    (r : Outcome A) (ext : Trace) : Prop :=
  (∃ a, r = Returned a ∧ ext = whole) ∨
  (∃ e pre ev post, r = Raised e ∧ ext = pre ++ [ev] ∧ whole = pre ++ ev :: post ∧
                    behaviour b (tr ++ pre) ev = Some e).

(** The names [do_command] acts on. *)
Definition known_command (name : string) : bool :=
  bool_decide (name = "sound_buzzer") || bool_decide (name = "play_harry_potter").

(** ** Instances to run the component on *)

(** The float literal 0.01, as the binary64 value nearest to it. *)
Definition float_0_01 : Q := 5764607523034235 # 576460752303423488.

(** An interpreter that writes a float as a fraction and multiplies
    exactly. *)
Definition fraction_interpreter : Interpreter := {|
  float_repr q := pretty (Qnum q) +:+ "/" +:+ pretty (Zpos (Qden q));
  float_mul := Qmult;
  container_repr _ := "..."
|}.

(** An SDK that names a board by the string it is given. *)
Definition plain_sdk : Sdk := {|
  get_resource_name v :=
    match v with
    | VStr s => inr (MkResourceName "rdk" "component" "board" s)
    | _ => inl (TypeError "bad argument type for built-in operation")
    end;
  resource_name_str := rn_name
|}.

Definition steady_board : Board := MkBoard (λ _ _, None).

(** A board whose pin refuses every duty cycle but leaves the rest be. *)
Definition stuck_board : Board :=
  MkBoard (λ _ ev, match ev with
                   | SetPwm _ _ => Some (MkExn "GRPCError" "pin unavailable")
                   | _ => None
                   end).

Definition piezo_on (b : Board) : Piezo := MkPiezo (VStr "12") (inr (BoardResource b)).

(** ** Tactics *)

(** Run a task down to the answers of the board. *)
Ltac run_task :=
  unfold gpio_pin_by_name, set_pwm_frequency, set_pwm, sleep, call;
  unfold try_except, bind, ret, raise, lift; simpl.

(** Use what is known of the board's next answer, then bring the trace back
    to the form [tr ++ [...]]. *)
Ltac board_step Hanswer :=
  rewrite Hanswer; simpl; rewrite <- ?app_assoc; simpl.

(** A board that never fails answers [None] to whatever is in the goal. *)
Ltac reliable_board Hrel b :=
  repeat match goal with
         | |- context [behaviour b ?h ?ev] => rewrite (Hrel h ev); simpl
         end.

(** ** Strings *)

Lemma is_prefix_app (p s : string) : is_prefix p (p +:+ s) = true.
Proof.
  induction p as [|a p IH]; simpl; [done|].
  rewrite bool_decide_eq_true_2 by done. exact IH.
Qed.

Lemma contains_prefix (key s : string) : is_prefix key s = true → contains key s = true.
Proof. intros Hp. destruct s; simpl in *; rewrite Hp; done. Qed.

Lemma contains_app (key pre post : string) : contains key (pre +:+ key +:+ post) = true.
Proof.
  induction pre as [|a pre IH].
  - apply contains_prefix. exact (is_prefix_app key post).
  - change (contains key (String a (pre +:+ key +:+ post)) = true).
    simpl. rewrite IH. apply orb_true_r.
Qed.

Lemma is_prefix_spec (p s : string) :
  is_prefix p s = true ↔ ∃ post, s = p +:+ post.
Proof.
  split; [|intros [post ->]; apply is_prefix_app].
  revert s. induction p as [|a p IH]; intros s Hp.
  - by exists s.
  - destruct s as [|c s]; [done|]. simpl in Hp.
    apply andb_true_iff in Hp as [Hac Hp]. apply bool_decide_eq_true in Hac as ->.
    destruct (IH s Hp) as [post ->]. by exists post.
Qed.

(** [contains] decides whether the key occurs in the string. *)
Lemma contains_spec (key s : string) :
  contains key s = true ↔ ∃ pre post, s = pre +:+ key +:+ post.
Proof.
  split; [|intros (pre & post & ->); apply contains_app].
  induction s as [|c s IH]; simpl; intros Hc; apply orb_true_iff in Hc as [Hp|Hc].
  - apply is_prefix_spec in Hp as [post Hs]. by exists "", post.
  - done.
  - apply is_prefix_spec in Hp as [post Hs]. by exists "", post.
  - destruct (IH Hc) as (pre & post & ->). by exists (String c pre), post.
Qed.

(** ** The argument checks *)

Lemma num_value_is_number (v : PyVal) (q : Q) : num_value v = Some q → is_number v = true.
Proof. by destruct v. Qed.

Lemma positive_passes (v : PyVal) :
  positive_number v → negb (is_number v) || py_le_int v 0 = false.
Proof.
  intros (q & Hq & Hpos). rewrite (num_value_is_number _ _ Hq). simpl.
  unfold py_le_int. rewrite Hq.
  destruct (Qle_bool q (inject_Z 0)) eqn:E; [|done].
  apply Qle_bool_iff in E. exfalso. apply (Qlt_not_le _ _ Hpos). exact E.
Qed.

Lemma nonpositive_fails (v : PyVal) :
  nonpositive_number v → negb (is_number v) || py_le_int v 0 = true.
Proof.
  intros (q & Hq & Hle). rewrite (num_value_is_number _ _ Hq). simpl.
  unfold py_le_int. rewrite Hq. by apply Qle_bool_iff.
Qed.

Lemma in_unit_interval_passes (v : PyVal) :
  in_unit_interval v →
  negb (is_number v) || negb (py_int_le 0 v && py_le_int v 1) = false.
Proof.
  intros (q & Hq & H0 & H1). rewrite (num_value_is_number _ _ Hq). simpl.
  unfold py_int_le, py_le_int. rewrite Hq.
  assert (Qle_bool (inject_Z 0) q = true) as -> by (by apply Qle_bool_iff).
  assert (Qle_bool q (inject_Z 1) = true) as -> by (by apply Qle_bool_iff).
  done.
Qed.

Lemma outside_unit_interval_fails (v : PyVal) :
  outside_unit_interval v →
  negb (is_number v) || negb (py_int_le 0 v && py_le_int v 1) = true.
Proof.
  intros (q & Hq & Hout). rewrite (num_value_is_number _ _ Hq). simpl.
  unfold py_int_le, py_le_int. rewrite Hq.
  destruct Hout as [Hneg | Hbig].
  - destruct (Qle_bool (inject_Z 0) q) eqn:E; [|done].
    apply Qle_bool_iff in E. exfalso. apply (Qlt_not_le _ _ Hneg). exact E.
  - destruct (Qle_bool q (inject_Z 1)) eqn:E; [|by rewrite andb_false_r].
    apply Qle_bool_iff in E. exfalso. apply (Qlt_not_le _ _ Hbig). exact E.
Qed.

(** On a number, [int] is the truncation of its value. *)
Lemma number_has_int (v : PyVal) (q : Q) :
  num_value v = Some q → py_int v = inr (Qtruncate q).
Proof.
  destruct v; simpl; intros; simplify_eq; try done.
  - unfold Qtruncate. simpl. by rewrite Z.quot_1_r.
  - unfold Qtruncate. simpl. by rewrite Z.quot_1_r.
Qed.

Lemma Qtruncate_fraction (q : Q) : (0 < q)%Q → (q < 1)%Q → Qtruncate q = 0.
Proof.
  destruct q as [n d]. unfold Qlt, Qtruncate. simpl. intros H0 H1.
  apply Z.quot_small. lia.
Qed.

(** ** Sounding one tone *)

Section SoundBuzzer.
Context {interp : Interpreter}.

(** Once the arguments pass the checks, [sound_buzzer] is its hardware
    sequence under the handler. *)
Lemma sound_buzzer_checked (self : Piezo) (b : Board) (f d dc : PyVal) (hz : Z)
    (t : option PyVal) :
  configured_with self b → positive_number f → positive_number d → in_unit_interval dc →
  py_int f = inr hz →
  sound_buzzer self f d dc t =
  try_except
    (gpio_pin ← gpio_pin_by_name b (pin self);
     set_pwm_frequency gpio_pin hz ;;
     set_pwm gpio_pin dc ;;
     sleep d ;;
     set_pwm gpio_pin (VFloat 0) ;;
     ret "Buzzer sounded successfully.")
    (λ e, ret ("Error in sound_buzzer: " +:+ exn_msg e)).
Proof.
  intros Hcfg Hf Hd Hdc Hhz. unfold sound_buzzer, sound_buzzer_body.
  rewrite (positive_passes f Hf), (positive_passes d Hd), (in_unit_interval_passes dc Hdc).
  rewrite Hhz. unfold board_of. rewrite Hcfg. reflexivity.
Qed.

(** A rejected call returns its message and leaves the trace as it was. *)
Lemma sound_buzzer_rejected (self : Piezo) (f d dc : PyVal) (t : option PyVal)
    (key : string) (tr : Trace) :
  rejected f d dc key →
  ∃ got, sound_buzzer self f d dc t tr =
         (Returned ("Error in sound_buzzer: " +:+ key +:+ got), tr).
Proof.
  intros Hrej. unfold sound_buzzer, sound_buzzer_body.
  destruct Hrej as [f d dc Hf | f d dc Hf Hd | f d dc Hf Hd Hdc].
  - rewrite (nonpositive_fails f Hf). eexists. run_task. reflexivity.
  - rewrite (positive_passes f Hf), (nonpositive_fails d Hd).
    eexists. run_task. reflexivity.
  - rewrite (positive_passes f Hf), (positive_passes d Hd),
      (outside_unit_interval_fails dc Hdc).
    eexists. run_task. reflexivity.
Qed.

(** Whatever happens inside, [sound_buzzer] returns a string. *)
Lemma sound_buzzer_never_raises (self : Piezo) (f d dc : PyVal) (t : option PyVal)
    (tr : Trace) :
  ∃ s tr', sound_buzzer self f d dc t tr = (Returned s, tr').
Proof.
  unfold sound_buzzer, try_except.
  destruct (sound_buzzer_body self f d dc tr) as [[s|e] tr']; unfold ret; eauto.
Qed.


(** C2, amended: the first check that rejects the call decides the message.
    A frequency <= 0 gives an error string containing "Frequency"; with a
    positive frequency, a duration <= 0 gives one containing "Duration";
    with both positive, a duty cycle outside [0, 1] gives one containing
    "Duty cycle".  In each case the string is returned, not raised, and no
    call is issued. *)
Theorem sound_buzzer_invalid_argument (self : Piezo) (f d dc : PyVal)
    (t : option PyVal) (key : string) (tr : Trace) :
  rejected f d dc key →
  ∃ msg, sound_buzzer self f d dc t tr = (Returned msg, tr) ∧
         is_prefix "Error in sound_buzzer: " msg = true ∧
         contains key msg = true.
Proof.
  intros Hrej.
  destruct (sound_buzzer_rejected self f d dc t key tr Hrej) as [got Hrun].
  eexists. split; [exact Hrun|]. split.
  - apply is_prefix_app.
  - apply contains_app.
Qed.

(** C5: when a call to the board fails after the checks passed, and every
    call before it succeeded, [sound_buzzer] returns the error string made
    from the exception and the failing call is the last one issued: nothing
    is sent after it, not even [set_pwm(0.0)]. *)
Theorem sound_buzzer_hardware_failure (self : Piezo) (b : Board) (f d dc : PyVal)
    (t : option PyVal) (hz : Z) (tr pre post : Trace) (ev : Event) (e : Exn) :
  configured_with self b →
  positive_number f → positive_number d → in_unit_interval dc →
  py_int f = inr hz →
  tone_calls self hz d dc = pre ++ ev :: post →
  (∀ pre' ev' post', pre = pre' ++ ev' :: post' → answer b (tr ++ pre') ev' = None) →
  answer b (tr ++ pre) ev = Some e →
  sound_buzzer self f d dc t tr =
  (Returned ("Error in sound_buzzer: " +:+ exn_msg e), tr ++ pre ++ [ev]).
Proof.
  intros Hcfg Hf Hd Hdc Hhz Hsplit Hbefore Hfail.
  rewrite (sound_buzzer_checked self b f d dc hz t); eauto.
  unfold tone_calls in Hsplit.
  destruct pre as [|e1 pre]; simplify_eq/=.
  { run_task. rewrite app_nil_r in Hfail. by rewrite Hfail. }
  pose proof (Hbefore [] _ _ eq_refl) as Hok1. simpl in Hok1. rewrite app_nil_r in Hok1.
  destruct pre as [|e2 pre]; simplify_eq/=.
  { run_task. board_step Hok1. board_step Hfail. done. }
  pose proof (Hbefore [_] _ _ eq_refl) as Hok2. simpl in Hok2.
  destruct pre as [|e3 pre]; simplify_eq/=.
  { run_task. board_step Hok1. board_step Hok2. board_step Hfail. done. }
  pose proof (Hbefore [_; _] _ _ eq_refl) as Hok3. simpl in Hok3.
  destruct pre as [|e4 pre]; simplify_eq/=.
  destruct pre as [|e5 pre]; simplify_eq/=.
  { run_task. board_step Hok1. board_step Hok2. board_step Hok3. board_step Hfail. done. }
  destruct pre; simplify_eq/=.
Qed.

(** C9: the timeout is accepted and ignored.  Two runs that differ in it
    only give the same result and the same calls and waits. *)
Theorem timeout_has_no_effect (self : Piezo) (f d dc : PyVal)
    (command : list (string * PyVal)) (t1 t2 : option PyVal) (tr : Trace) :
  sound_buzzer self f d dc t1 tr = sound_buzzer self f d dc t2 tr ∧
  do_command self command t1 tr = do_command self command t2 tr.
Proof. split; reflexivity. Qed.

(** C10: a frequency strictly between 0 and 1 passes the check, truncates
    to 0, and [set_pwm_frequency(0)] is issued right after the pin
    lookup. *)
Theorem sound_buzzer_fractional_frequency (self : Piezo) (b : Board) (q : Q)
    (d dc : PyVal) (t : option PyVal) (tr : Trace) :
  configured_with self b →
  (0 < q)%Q → (q < 1)%Q → positive_number d → in_unit_interval dc →
  behaviour b tr (GpioPinByName (pin self)) = None →
  py_int (VFloat q) = inr 0 ∧
  ∃ res rest,
    sound_buzzer self (VFloat q) d dc t tr =
    (Returned res,
     tr ++ GpioPinByName (pin self) :: SetPwmFrequency (pin self) 0 :: rest).
Proof.
  intros Hcfg Hlo Hhi Hd Hdc Hpin.
  assert (py_int (VFloat q) = inr 0) as Hint.
  { simpl. by rewrite Qtruncate_fraction. }
  split; [exact Hint|].
  rewrite (sound_buzzer_checked self b (VFloat q) d dc 0 t); eauto;
    [|by exists q].
  run_task. rewrite Hpin. simpl.
  repeat match goal with
         | |- context [behaviour b ?h ?ev] => destruct (behaviour b h ev); simpl
         end;
    eexists _, _; rewrite <- ?app_assoc; simpl; reflexivity.
Qed.
End SoundBuzzer.


(** C2 as worded fails: with a frequency and a duration both <= 0, the
    message names the frequency and does not contain "Duration". *)
Lemma duration_message_not_guaranteed :
  nonpositive_number (VInt (-1)) ∧
  sound_buzzer (interp := fraction_interpreter) (piezo_on steady_board)
    (VInt (-1)) (VInt (-1)) (VFloat float_0_5) None [] =
  (Returned "Error in sound_buzzer: Frequency must be a positive number. Got: -1", []) ∧
  contains "Duration"
    "Error in sound_buzzer: Frequency must be a positive number. Got: -1" = false.
Proof.
  split; [|split].
  - exists (inject_Z (-1)). split; [reflexivity | discriminate].
  - reflexivity.
  - reflexivity.
Qed.

(** A duration of 0 with a frequency of 1000. *)
Lemma sound_buzzer_invalid_argument_witness :
  ∃ msg,
    sound_buzzer (interp := fraction_interpreter) (piezo_on steady_board)
      (VInt 1000) (VInt 0) (VFloat float_0_5) None [] = (Returned msg, []) ∧
    is_prefix "Error in sound_buzzer: " msg = true ∧
    contains "Duration" msg = true.
Proof.
  apply (sound_buzzer_invalid_argument (interp := fraction_interpreter)).
  apply rejected_duration.
  - exists (inject_Z 1000). split; reflexivity.
  - exists (inject_Z 0). split; [reflexivity | discriminate].
Defined.

(** On the stuck board the tone stops at [set_pwm(0.5)]: the pin was looked
    up, the frequency set, and nothing follows the failing call. *)
Lemma sound_buzzer_hardware_failure_witness :
  sound_buzzer (interp := fraction_interpreter) (piezo_on stuck_board)
    (VInt 1000) (VFloat float_0_01) (VFloat float_0_5) None [] =
  (Returned "Error in sound_buzzer: pin unavailable",
   [GpioPinByName (VStr "12"); SetPwmFrequency (VStr "12") 1000;
    SetPwm (VStr "12") (VFloat float_0_5)]).
Proof.
  apply (sound_buzzer_hardware_failure (interp := fraction_interpreter)
           (piezo_on stuck_board) stuck_board
           (VInt 1000) (VFloat float_0_01) (VFloat float_0_5) None 1000 []
           [GpioPinByName (VStr "12"); SetPwmFrequency (VStr "12") 1000]
           [Sleep (VFloat float_0_01); SetPwm (VStr "12") (VFloat 0)]
           (SetPwm (VStr "12") (VFloat float_0_5))
           (MkExn "GRPCError" "pin unavailable")).
  - reflexivity.
  - exists (inject_Z 1000). split; reflexivity.
  - exists float_0_01. split; reflexivity.
  - exists float_0_5. split; [reflexivity|]. split; discriminate.
  - reflexivity.
  - reflexivity.
  - intros pre' ev' post' Hpre.
    destruct pre' as [|? [|? [|? ?]]]; simplify_eq/=; reflexivity.
  - reflexivity.
Defined.

(** A frequency of 0.5. *)
Lemma sound_buzzer_fractional_frequency_witness :
  py_int (VFloat float_0_5) = inr 0 ∧
  ∃ res rest,
    sound_buzzer (interp := fraction_interpreter) (piezo_on steady_board)
      (VFloat float_0_5) (VFloat 1) (VFloat float_0_5) None [] =
    (Returned res,
     [] ++ GpioPinByName (VStr "12") :: SetPwmFrequency (VStr "12") 0 :: rest).
Proof.
  apply (sound_buzzer_fractional_frequency (interp := fraction_interpreter)
           (piezo_on steady_board) steady_board float_0_5).
  - reflexivity.
  - reflexivity.
  - reflexivity.
  - exists 1%Q. split; reflexivity.
  - exists float_0_5. split; [reflexivity|]. split; discriminate.
  - reflexivity.
Defined.

(** ** Playing the melody *)

Lemma play_note_reliable (self : Piezo) (b : Board) (note : Z * Q) (tr : Trace) :
  reliable b →
  play_note (MkPin b (pin self)) note tr = (Returned tt, tr ++ note_cycle self note).
Proof.
  intros Hrel. destruct note as [frequency duration]. unfold play_note. run_task.
  reliable_board Hrel b.
  unfold note_cycle. by rewrite <- !app_assoc.
Qed.

Lemma for_each_notes_reliable (self : Piezo) (b : Board) (notes : list (Z * Q)) (tr : Trace) :
  reliable b →
  for_each notes (play_note (MkPin b (pin self))) tr =
  (Returned tt, tr ++ concat (map (note_cycle self) notes)).
Proof.
  intros Hrel. revert tr.
  induction notes as [|note notes IH]; intros tr; simpl.
  - unfold ret. by rewrite app_nil_r.
  - unfold bind. rewrite (play_note_reliable self b note tr Hrel).
    rewrite IH. by rewrite <- app_assoc.
Qed.

(** C3: when no call fails, [play_harry_potter] looks the pin up and then
    runs 22 note cycles, in the order of the melody and rhythm tables; cycle
    i issues [set_pwm_frequency(melody[i])], [set_pwm(0.5)], a wait of
    [rhythm[i]] seconds, [set_pwm(0.0)] and a wait of 0.1 seconds. *)
Theorem play_harry_potter_note_cycles (self : Piezo) (b : Board) (tr : Trace) :
  configured_with self b → reliable b →
  play_harry_potter self tr =
  (Returned tt,
   tr ++ GpioPinByName (pin self) :: concat (map (note_cycle self) (zip melody rhythm))) ∧
  length (zip melody rhythm) = 22%nat ∧
  length melody = 22%nat ∧ length rhythm = 22%nat.
Proof.
  intros Hcfg Hrel. split; [|done].
  unfold play_harry_potter, board_of. rewrite Hcfg.
  unfold try_except, bind at 1. unfold ret at 1.
  unfold bind, gpio_pin_by_name, bind, call, ret at 1.
  rewrite (Hrel tr). 
  rewrite (for_each_notes_reliable self b _ _ Hrel).
  by rewrite <- app_assoc.
Qed.

(** The melody on a board that never fails. *)
Lemma play_harry_potter_note_cycles_witness :
  play_harry_potter (piezo_on steady_board) [] =
  (Returned tt,
   [] ++ GpioPinByName (VStr "12")
      :: concat (map (note_cycle (piezo_on steady_board)) (zip melody rhythm))) ∧
  length (zip melody rhythm) = 22%nat ∧
  length melody = 22%nat ∧ length rhythm = 22%nat.
Proof.
  apply (play_harry_potter_note_cycles (piezo_on steady_board) steady_board []).
  - reflexivity.
  - intros tr ev. reflexivity.
Defined.

(** ** Dispatching commands *)

Section DoCommand.
Context {interp : Interpreter}.

Lemma do_command_entry_unknown (self : Piezo) (result : gmap string string)
    (name : string) (args : PyVal) (tr : Trace) :
  name ≠ "sound_buzzer" → name ≠ "play_harry_potter" →
  do_command_entry self result name args tr =
  (Returned (<[name := unknown_command name]> result), tr).
Proof.
  intros Hsb Hhp. unfold do_command_entry.
  rewrite (decide_False (P := name = "sound_buzzer")) by done.
  rewrite (decide_False (P := name = "play_harry_potter")) by done.
  reflexivity.
Qed.

(** Every turn of the loop returns, and writes under the name of its
    entry. *)
Lemma do_command_entry_returns (self : Piezo) (result : gmap string string)
    (name : string) (args : PyVal) (tr : Trace) :
  ∃ v tr', do_command_entry self result name args tr =
           (Returned (<[name := v]> result), tr').
Proof.
  unfold do_command_entry.
  destruct (decide (name = "sound_buzzer")) as [->|Hsb].
  { unfold try_except, bind, lift, ret, raise.
    destruct (dict_get args "frequency" _) as [e|frequency]; [by eauto|].
    destruct (dict_get args "duration" _) as [e|duration]; [by eauto|].
    destruct (dict_get args "duty_cycle" _) as [e|duty_cycle]; [by eauto|].
    destruct (sound_buzzer self frequency duration duty_cycle None tr) as [[s|e] tr'];
      [|by eauto].
    destruct (py_mul_int duty_cycle 100) as [e|percent]; by eauto. }
  destruct (decide (name = "play_harry_potter")) as [->|Hhp].
  { unfold try_except, bind, ret.
    destruct (play_harry_potter self tr) as [[[]|e] tr']; by eauto. }
  unfold ret. by eauto.
Qed.

Lemma do_command_loop_app (self : Piezo) (pre post : list (string * PyVal))
    (result : gmap string string) (tr : Trace) :
  do_command_loop self (pre ++ post) result tr =
  match do_command_loop self pre result tr with
  | (Returned r1, tr1) => do_command_loop self post r1 tr1
  | (Raised e, tr1) => (Raised e, tr1)
  end.
Proof.
  revert result tr. induction pre as [|[name args] pre IH]; intros result tr; simpl.
  - reflexivity.
  - unfold bind.
    destruct (do_command_entry self result name args tr) as [[r|e] tr']; [apply IH|done].
Qed.

Lemma do_command_loop_returns (self : Piezo) (command : list (string * PyVal))
    (result : gmap string string) (tr : Trace) :
  ∃ r tr', do_command_loop self command result tr = (Returned r, tr').
Proof.
  revert result tr. induction command as [|[name args] command IH]; intros result tr; simpl.
  - unfold ret. by eauto.
  - unfold bind.
    destruct (do_command_entry_returns self result name args tr) as (v & tr' & ->).
    apply IH.
Qed.

(** What an unknown name has recorded is never replaced by something else:
    any later entry of that name records the same string, and the two
    known commands write under their own names. *)
Lemma do_command_loop_keeps_unknown (self : Piezo) (command : list (string * PyVal))
    (result : gmap string string) (k : string) (tr : Trace) :
  k ≠ "sound_buzzer" → k ≠ "play_harry_potter" →
  result !! k = Some (unknown_command k) →
  ∃ r tr', do_command_loop self command result tr = (Returned r, tr') ∧
           r !! k = Some (unknown_command k).
Proof.
  intros Hsb Hhp. revert result tr.
  induction command as [|[name args] command IH]; intros result tr Hk; simpl.
  - unfold ret. by eauto.
  - unfold bind. destruct (decide (name = k)) as [->|Hne].
    + rewrite do_command_entry_unknown by done.
      apply IH. apply lookup_insert_eq.
    + destruct (do_command_entry_returns self result name args tr) as (v & tr' & ->).
      apply IH. by rewrite lookup_insert_ne.
Qed.

(** The "sound_buzzer" entry: the arguments are read with their defaults,
    [sound_buzzer] is called on them, and whatever it returns the success
    message is recorded, as long as the duty cycle can be multiplied. *)
Lemma do_command_entry_sound_buzzer (self : Piezo) (result : gmap string string)
    (d : list (string * PyVal)) (percent : PyVal) (tr : Trace) :
  let frequency := default_or (assoc_get d "frequency") (VInt 1000) in
  let duration := default_or (assoc_get d "duration") (VFloat 1) in
  let duty_cycle := default_or (assoc_get d "duty_cycle") (VFloat float_0_5) in
  py_mul_int duty_cycle 100 = inr percent →
  ∃ s tr',
    sound_buzzer self frequency duration duty_cycle None tr = (Returned s, tr') ∧
    do_command_entry self result "sound_buzzer" (VDict d) tr =
    (Returned (<["sound_buzzer" :=
                   "Buzzer activated: " +:+ py_str frequency +:+ "Hz for "
                   +:+ py_str duration +:+ "s with " +:+ py_str percent
                   +:+ "% duty cycle."]> result),
     tr').
Proof.
  intros frequency duration duty_cycle Hmul.
  destruct (sound_buzzer_never_raises self frequency duration duty_cycle None tr)
    as (s & tr' & Hrun).
  exists s, tr'. split; [exact Hrun|].
  unfold do_command_entry. simpl. unfold try_except, bind, ret. simpl.
  fold frequency duration duty_cycle. rewrite Hrun, Hmul. reflexivity.
Qed.

(** C4 fails on the code: [sound_buzzer] rejects a frequency of -5 and
    returns an error string, [do_command] drops that string and records the
    success message under "sound_buzzer". *)
Theorem do_command_hides_sound_buzzer_error (self : Piezo) (t : option PyVal) (tr : Trace) :
  sound_buzzer self (VInt (-5)) (VFloat 1) (VFloat float_0_5) None tr =
  (Returned "Error in sound_buzzer: Frequency must be a positive number. Got: -5", tr) ∧
  do_command self [("sound_buzzer", VDict [("frequency", VInt (-5))])] t tr =
  (Returned {["sound_buzzer" :=
                "Buzzer activated: -5Hz for " +:+ float_repr 1 +:+ "s with "
                +:+ float_repr (float_mul float_0_5 (inject_Z 100)) +:+ "% duty cycle."]},
   tr).
Proof. split; reflexivity. Qed.

(** C8: an entry whose name is neither "sound_buzzer" nor
    "play_harry_potter" records "Unknown command: <name>" under that name
    and issues nothing: the entries after it start from the trace the
    entries before it left.  The string is still there when [do_command]
    returns.  In particular the command {"foo": {}} gives
    {"foo": "Unknown command: foo"} and no call. *)
Theorem do_command_unknown (self : Piezo) (pre post : list (string * PyVal))
    (k : string) (args : PyVal) (t : option PyVal) (tr : Trace) :
  k ≠ "sound_buzzer" → k ≠ "play_harry_potter" →
  (∃ r1 tr1 r tr',
     do_command_loop self pre ∅ tr = (Returned r1, tr1) ∧
     do_command_entry self r1 k args tr1 =
       (Returned (<[k := "Unknown command: " +:+ k]> r1), tr1) ∧
     do_command self (pre ++ (k, args) :: post) t tr =
       do_command_loop self post (<[k := "Unknown command: " +:+ k]> r1) tr1 ∧
     do_command self (pre ++ (k, args) :: post) t tr = (Returned r, tr') ∧
     r !! k = Some ("Unknown command: " +:+ k)) ∧
  do_command self [("foo", VDict [])] t tr =
    (Returned {["foo" := "Unknown command: foo"]}, tr).
Proof.
  intros Hsb Hhp. split; [|reflexivity].
  destruct (do_command_loop_returns self pre ∅ tr) as (r1 & tr1 & Hpre).
  pose proof (do_command_entry_unknown self r1 k args tr1 Hsb Hhp) as Hentry.
  assert (do_command self (pre ++ (k, args) :: post) t tr =
          do_command_loop self post (<[k := unknown_command k]> r1) tr1) as Hrest.
  { unfold do_command. rewrite do_command_loop_app, Hpre. simpl.
    unfold bind. by rewrite Hentry. }
  destruct (do_command_loop_keeps_unknown self post (<[k := unknown_command k]> r1) k tr1)
    as (r & tr' & Hrun & Hk); [done | done | apply lookup_insert_eq |].
  exists r1, tr1, r, tr'.
  split; [exact Hpre|]. split; [exact Hentry|]. split; [exact Hrest|].
  split; [by rewrite Hrest | exact Hk].
Qed.
End DoCommand.

(** The command {"play_harry_potter": {}, "foo": {}, "bar": None}. *)
Lemma do_command_unknown_witness :
  (∃ r1 tr1 r tr',
     do_command_loop (interp := fraction_interpreter) (piezo_on steady_board)
       [("play_harry_potter", VDict [])] ∅ [] = (Returned r1, tr1) ∧
     do_command_entry (interp := fraction_interpreter) (piezo_on steady_board) r1
       "foo" (VDict []) tr1 =
       (Returned (<["foo" := "Unknown command: foo"]> r1), tr1) ∧
     do_command (interp := fraction_interpreter) (piezo_on steady_board)
       ([("play_harry_potter", VDict [])] ++ ("foo", VDict []) :: [("bar", VNone)]) None [] =
       do_command_loop (interp := fraction_interpreter) (piezo_on steady_board)
         [("bar", VNone)] (<["foo" := "Unknown command: foo"]> r1) tr1 ∧
     do_command (interp := fraction_interpreter) (piezo_on steady_board)
       ([("play_harry_potter", VDict [])] ++ ("foo", VDict []) :: [("bar", VNone)]) None [] =
       (Returned r, tr') ∧
     r !! "foo" = Some "Unknown command: foo") ∧
  do_command (interp := fraction_interpreter) (piezo_on steady_board)
    [("foo", VDict [])] None [] =
    (Returned {["foo" := "Unknown command: foo"]}, []).
Proof.
  apply (do_command_unknown (interp := fraction_interpreter) (piezo_on steady_board)
           [("play_harry_potter", VDict [])] [("bar", VNone)] "foo" (VDict []) None []).
  - discriminate.
  - discriminate.
Defined.

(** ** Configuration *)

Lemma is_digit_char_spec (c : ascii) :
  is_digit_char c = true ↔ (48 ≤ nat_of_ascii c ≤ 57)%nat.
Proof.
  unfold is_digit_char. rewrite andb_true_iff, !Nat.leb_le. done.
Qed.

Lemma all_digits_spec (s : string) :
  all_digits s = true ↔
  ∀ c, c ∈ String.list_ascii_of_string s → (48 ≤ nat_of_ascii c ≤ 57)%nat.
Proof.
  induction s as [|a s IH]; simpl.
  - split; [|done]. intros _ c Hc. by apply elem_of_nil in Hc.
  - rewrite andb_true_iff, is_digit_char_spec, IH. split.
    + intros [Ha Hs] c [->|Hc]%elem_of_cons; auto.
    + intros Hall. split; [apply Hall; left | intros c Hc; apply Hall; by right].
Qed.

Lemma isdigit_spec (s : string) : isdigit s = true ↔ digits_only s.
Proof.
  unfold digits_only. destruct s as [|a s].
  - simpl. split; [done | by intros [? _]].
  - unfold isdigit. rewrite all_digits_spec. split; [by intros ? | by intros [_ ?]].
Qed.

Lemma validate_config_checks (fields : gmap string PbValue) :
  validate_config fields =
  if pin_accepted fields
  then if board_accepted fields then inr [] else inl board_error
  else inl pin_error.
Proof.
  unfold validate_config, pin_accepted, board_accepted.
  destruct (fields !! "piezo_pin") as [vp|]; destruct (fields !! "board") as [vb|];
    try destruct (has_string_value vp); try destruct (isdigit (string_value vp));
    try destruct (has_string_value vb); reflexivity.
Qed.

Lemma pin_accepted_spec (fields : gmap string PbValue) :
  pin_accepted fields = false ↔ not_digit_string fields "piezo_pin".
Proof.
  unfold pin_accepted, not_digit_string. split.
  - destruct (fields !! "piezo_pin") as [v|]; [|done].
    intros Hchk. exists v. split; [done|]. intros (s & -> & Hd%isdigit_spec).
    simpl in Hchk. congruence.
  - intros (v & -> & Hbad).
    destruct (has_string_value v && isdigit (string_value v)) eqn:Hchk; [|done].
    exfalso. apply Hbad. apply andb_true_iff in Hchk as [Hs Hd].
    destruct v; simplify_eq/=. eexists. split; [done|]. by apply isdigit_spec.
Qed.

Lemma board_accepted_spec (fields : gmap string PbValue) :
  board_accepted fields = false ↔ not_string fields "board".
Proof.
  unfold board_accepted, not_string. split.
  - destruct (fields !! "board") as [v|]; [|done].
    intros Hchk. exists v. split; [done|]. intros (s & ->). done.
  - intros (v & -> & Hbad). destruct v; try done. exfalso. apply Hbad. by eauto.
Qed.



Section Reconfigure.
Context {sdk : Sdk}.

End Reconfigure.


(** ** Further properties of the tone *)

Lemma is_number_value (v : PyVal) : is_number v = true → ∃ q, num_value v = Some q.
Proof. destruct v; simpl; intros; simplify_eq; eauto. Qed.

(** The converse of [positive_passes]: what passes the first two checks is a
    positive number. *)
Lemma passes_positive (v : PyVal) :
  negb (is_number v) || py_le_int v 0 = false → positive_number v.
Proof.
  intros [Hnum Hle]%orb_false_iff. apply negb_false_iff in Hnum.
  destruct (is_number_value v Hnum) as [q Hq]. exists q. split; [done|].
  unfold py_le_int in Hle. rewrite Hq in Hle.
  apply Qnot_le_lt. intros Hq0.
  assert (Qle_bool q (inject_Z 0) = true) by (by apply Qle_bool_iff). congruence.
Qed.

Lemma passes_in_unit_interval (v : PyVal) :
  negb (is_number v) || negb (py_int_le 0 v && py_le_int v 1) = false →
  in_unit_interval v.
Proof.
  intros [Hnum Hrange]%orb_false_iff. apply negb_false_iff in Hnum, Hrange.
  apply andb_true_iff in Hrange as [Hlo Hhi].
  destruct (is_number_value v Hnum) as [q Hq]. exists q. split; [done|].
  unfold py_int_le, py_le_int in *. rewrite Hq in Hlo, Hhi.
  split; by apply Qle_bool_iff.
Qed.

(** The integer part of a positive rational. *)
Lemma Qtruncate_bounds (q : Q) :
  (0 < q)%Q →
  0 ≤ Qtruncate q ∧ (inject_Z (Qtruncate q) <= q)%Q ∧ (q < inject_Z (Qtruncate q + 1))%Q.
Proof.
  destruct q as [n d]. unfold Qlt, Qle, Qtruncate. simpl. intros Hpos.
  assert (0 < n) as Hn by lia.
  pose proof (Z.quot_rem' n (Z.pos d)) as Hdiv.
  pose proof (Z.rem_bound_pos n (Z.pos d) ltac:(lia) ltac:(lia)) as Hrem.
  pose proof (Z.quot_pos n (Z.pos d) ltac:(lia) ltac:(lia)) as Hquot.
  split; [done|]. split; nia.
Qed.

Section SoundBuzzerAnyBoard.
Context {interp : Interpreter}.

(** Either the call ends in an error string before anything is asked of
    the board, or the three checks passed and the component holds a board. *)
Lemma sound_buzzer_cases (self : Piezo) (f d dc : PyVal) (t : option PyVal) (tr : Trace) :
  (∃ msg, sound_buzzer self f d dc t tr =
          (Returned ("Error in sound_buzzer: " +:+ msg), tr)) ∨
  (∃ b q, configured_with self b ∧ num_value f = Some q ∧ (0 < q)%Q ∧
          positive_number d ∧ in_unit_interval dc).
Proof.
  unfold sound_buzzer, sound_buzzer_body.
  destruct (negb (is_number f) || py_le_int f 0) eqn:Hf;
    [left; eexists; run_task; reflexivity|].
  destruct (negb (is_number d) || py_le_int d 0) eqn:Hd;
    [left; eexists; run_task; reflexivity|].
  destruct (negb (is_number dc) || negb (py_int_le 0 dc && py_le_int dc 1)) eqn:Hdc;
    [left; eexists; run_task; reflexivity|].
  apply passes_positive in Hf, Hd. apply passes_in_unit_interval in Hdc.
  destruct Hf as (q & Hq & Hpos). rewrite (number_has_int f q Hq).
  unfold board_of.
  destruct (board self) as [v|[b|c]] eqn:Hboard;
    [left; eexists; run_task; reflexivity | | left; eexists; run_task; reflexivity].
  right. by exists b, q.
Qed.

(** With the checks passed on a component that holds a board, the calls
    issued are a non-empty initial part of the tone, whole when the call
    succeeds. *)
Lemma sound_buzzer_driven (self : Piezo) (b : Board) (f d dc : PyVal) (q : Q)
    (t : option PyVal) (tr : Trace) :
  configured_with self b →
  num_value f = Some q → (0 < q)%Q → positive_number d → in_unit_interval dc →
  ∃ s ext,
    sound_buzzer self f d dc t tr = (Returned s, tr ++ ext) ∧
    ext ≠ [] ∧
    ext `prefix_of` tone_calls self (Qtruncate q) d dc ∧
    ((s = "Buzzer sounded successfully." ∧ ext = tone_calls self (Qtruncate q) d dc) ∨
     is_prefix "Error in sound_buzzer: " s = true).
Proof.
  intros Hcfg Hq Hpos Hd Hdc.
  rewrite (sound_buzzer_checked self b f d dc (Qtruncate q) t);
    [| done | by exists q | done | done | by apply number_has_int].
  run_task. unfold tone_calls.
  repeat match goal with
         | |- context [behaviour b ?h ?ev] => destruct (behaviour b h ev); simpl
         end;
    rewrite <- ?app_assoc; simpl;
    eexists _, _; (split; [reflexivity|]); (split; [done|]).
  all: split; [by eexists|].
  all: first [by left | right; reflexivity].
Qed.

(** X1: whatever the arguments, the component and the board, [sound_buzzer]
    returns a string and raises nothing; the string is the success message
    or starts with "Error in sound_buzzer: ", and it is the success message
    only when the whole tone, down to [set_pwm(0.0)], was issued. *)
Theorem sound_buzzer_reports (self : Piezo) (f d dc : PyVal) (t : option PyVal)
    (tr : Trace) :
  ∃ s ext,
    sound_buzzer self f d dc t tr = (Returned s, tr ++ ext) ∧
    (s = "Buzzer sounded successfully." ∨
     is_prefix "Error in sound_buzzer: " s = true) ∧
    (s = "Buzzer sounded successfully." →
     ∃ hz, py_int f = inr hz ∧ ext = tone_calls self hz d dc).
Proof.
  destruct (sound_buzzer_cases self f d dc t tr)
    as [[msg Hrun] | (b & q & Hcfg & Hq & Hpos & Hd & Hdc)].
  - exists ("Error in sound_buzzer: " +:+ msg), []. rewrite app_nil_r.
    split; [exact Hrun|]. split; [right; apply is_prefix_app | discriminate].
  - destruct (sound_buzzer_driven self b f d dc q t tr Hcfg Hq Hpos Hd Hdc)
      as (s & ext & Hrun & _ & _ & [[-> ->] | Herr]).
    + eexists _, _. split; [exact Hrun|]. split; [by left|].
      intros _. exists (Qtruncate q). split; [by apply number_has_int | done].
    + exists s, ext. split; [exact Hrun|]. split; [by right|].
      intros ->. discriminate.
Qed.


(** X3: whatever the board answers, every call [sound_buzzer] issues is
    harmless: the frequency it sets is never negative and every duty cycle
    it sets lies within [0, 1]. *)
Theorem sound_buzzer_events_safe (self : Piezo) (f d dc : PyVal) (t : option PyVal)
    (tr : Trace) :
  ∃ s ext,
    sound_buzzer self f d dc t tr = (Returned s, tr ++ ext) ∧ Forall safe_event ext.
Proof.
  destruct (sound_buzzer_cases self f d dc t tr)
    as [[msg Hrun] | (b & q & Hcfg & Hq & Hpos & Hd & Hdc)].
  - eexists _, []. rewrite app_nil_r. split; [exact Hrun | constructor].
  - destruct (sound_buzzer_driven self b f d dc q t tr Hcfg Hq Hpos Hd Hdc)
      as (s & ext & Hrun & _ & [rest Hext] & _).
    exists s, ext. split; [exact Hrun|].
    assert (Forall safe_event (tone_calls self (Qtruncate q) d dc)) as Hall.
    { unfold tone_calls. repeat constructor; simpl.
      - by apply Qtruncate_bounds.
      - done.
      - exists 0%Q. split; [done|]. split; discriminate. }
    rewrite Hext in Hall. by apply Forall_app in Hall as [? _].
Qed.

(** X4: the frequency sent to the pin is the integer part of the one asked
    for, and it goes to the configured pin: for a frequency of value q, any
    [set_pwm_frequency(hz)] issued has hz <= q < hz + 1. *)
Theorem sound_buzzer_frequency_sent (self : Piezo) (f d dc : PyVal) (q : Q)
    (t : option PyVal) (tr : Trace) :
  num_value f = Some q →
  ∃ s ext,
    sound_buzzer self f d dc t tr = (Returned s, tr ++ ext) ∧
    ∀ p hz, SetPwmFrequency p hz ∈ ext →
            p = pin self ∧ (inject_Z hz <= q)%Q ∧ (q < inject_Z (hz + 1))%Q.
Proof.
  intros Hq.
  destruct (sound_buzzer_cases self f d dc t tr)
    as [[msg Hrun] | (b & q' & Hcfg & Hq' & Hpos & Hd & Hdc)].
  - eexists _, []. rewrite app_nil_r. split; [exact Hrun|].
    intros p hz Hin. by apply elem_of_nil in Hin.
  - assert (q' = q) as -> by congruence.
    destruct (sound_buzzer_driven self b f d dc q t tr Hcfg Hq Hpos Hd Hdc)
      as (s & ext & Hrun & _ & [rest Hext] & _).
    exists s, ext. split; [exact Hrun|].
    intros p hz Hin.
    assert (SetPwmFrequency p hz ∈ tone_calls self (Qtruncate q) d dc) as Hin'.
    { rewrite Hext. apply elem_of_app. by left. }
    unfold tone_calls in Hin'.
    repeat (apply elem_of_cons in Hin' as [Heq | Hin']; [try discriminate|]).
    + injection Heq as -> ->. split; [done|]. by apply Qtruncate_bounds.
    + by apply elem_of_nil in Hin'.
Qed.
End SoundBuzzerAnyBoard.


(** A frequency of 2.5. *)
Lemma sound_buzzer_frequency_sent_witness :
  ∃ s ext,
    sound_buzzer (interp := fraction_interpreter) (piezo_on steady_board)
      (VFloat (5 # 2)) (VFloat 1) (VFloat float_0_5) None [] = (Returned s, [] ++ ext) ∧
    ∀ p hz, SetPwmFrequency p hz ∈ ext →
            p = pin (piezo_on steady_board) ∧
            (inject_Z hz <= 5 # 2)%Q ∧ (5 # 2 < inject_Z (hz + 1))%Q.
Proof.
  apply (sound_buzzer_frequency_sent (interp := fraction_interpreter)
           (piezo_on steady_board) (VFloat (5 # 2)) (VFloat 1) (VFloat float_0_5)
           (5 # 2) None []).
  reflexivity.
Defined.

(** ** Further properties of the melody *)

Lemma play_note_any (self : Piezo) (b : Board) (note : Z * Q) (tr : Trace) :
  ∃ r ext,
    play_note (MkPin b (pin self)) note tr = (r, tr ++ ext) ∧
    ran_or_stopped b tr (note_cycle self note) r ext.
Proof.
  destruct note as [frequency duration]. unfold play_note, note_cycle. run_task.
  destruct (behaviour b tr _) as [e|] eqn:Hfreq; simpl.
  { eexists _, [_]. split; [reflexivity|]. right.
    eexists e, [], _, _. rewrite app_nil_r. by repeat split. }
  destruct (behaviour b (tr ++ [_]) _) as [e|] eqn:Hon; simpl.
  { eexists _, [_; _]. rewrite <- !app_assoc. split; [reflexivity|]. right.
    eexists e, [_], _, _. by repeat split. }
  destruct (behaviour b (((tr ++ [_]) ++ [_]) ++ [_]) _) as [e|] eqn:Hoff; simpl.
  { eexists _, [_; _; _; _]. rewrite <- !app_assoc. split; [reflexivity|]. right.
    rewrite <- !app_assoc in Hoff.
    eexists e, [_; _; _], _, _. by repeat split. }
  eexists _, _. rewrite <- !app_assoc. split; [reflexivity|]. left. by eexists.
Qed.

Lemma for_each_notes_any (self : Piezo) (b : Board) (notes : list (Z * Q)) (tr : Trace) :
  ∃ r ext,
    for_each notes (play_note (MkPin b (pin self))) tr = (r, tr ++ ext) ∧
    ran_or_stopped b tr (concat (map (note_cycle self) notes)) r ext.
Proof.
  revert tr. induction notes as [|note notes IH]; intros tr; cbn [for_each map concat].
  - exists (Returned tt), []. rewrite app_nil_r. split; [done|]. left. by eexists.
  - unfold bind.
    destruct (play_note_any self b note tr) as (r1 & ext1 & -> & Hnote).
    destruct Hnote as [(a & -> & ->) | (e & pre & ev & post & -> & -> & Hwhole & Hfail)].
    + cbv beta iota.
      destruct (IH (tr ++ note_cycle self note)) as (r2 & ext2 & -> & Hrest).
      exists r2, (note_cycle self note ++ ext2). rewrite app_assoc. split; [done|].
      destruct Hrest as [(a' & -> & ->) | (e & pre & ev & post & -> & -> & Hwhole & Hfail)].
      * left. by eexists.
      * right. exists e, (note_cycle self note ++ pre), ev, post.
        rewrite Hwhole, <- !app_assoc. rewrite <- app_assoc in Hfail. by repeat split.
    + exists (Raised e), (pre ++ [ev]). split; [done|]. right.
      exists e, pre, ev, (post ++ concat (map (note_cycle self) notes)).
      rewrite Hwhole, <- !app_assoc. by repeat split.
Qed.

(** The handler of [play_harry_potter] turns every exception into a plain
    return. *)
Lemma play_harry_potter_any_board_returns (self : Piezo) (tr : Trace) :
  ∃ tr', play_harry_potter self tr = (Returned tt, tr').
Proof.
  unfold play_harry_potter, try_except.
  match goal with |- context [match ?m tr with _ => _ end] => destruct (m tr) as [[[]|e] tr'] end;
    unfold ret; by eauto.
Qed.


(** ** Further properties of the dispatch *)

Section DoCommandMore.
Context {interp : Interpreter}.

(** What a turn of the loop records and asks does not depend on what was
    recorded before. *)
Lemma do_command_entry_same (self : Piezo) (r1 r2 : gmap string string)
    (name : string) (args : PyVal) (tr : Trace) :
  ∃ v tr', do_command_entry self r1 name args tr = (Returned (<[name := v]> r1), tr') ∧
           do_command_entry self r2 name args tr = (Returned (<[name := v]> r2), tr').
Proof.
  unfold do_command_entry.
  destruct (decide (name = "sound_buzzer")) as [->|Hsb].
  { unfold try_except, bind, lift, ret, raise.
    destruct (dict_get args "frequency" _) as [e|frequency]; [by eauto|].
    destruct (dict_get args "duration" _) as [e|duration]; [by eauto|].
    destruct (dict_get args "duty_cycle" _) as [e|duty_cycle]; [by eauto|].
    destruct (sound_buzzer self frequency duration duty_cycle None tr) as [[s|e] tr'];
      [|by eauto].
    destruct (py_mul_int duty_cycle 100) as [e|percent]; by eauto. }
  destruct (decide (name = "play_harry_potter")) as [->|Hhp].
  { unfold try_except, bind, ret.
    destruct (play_harry_potter self tr) as [[[]|e] tr']; by eauto. }
  unfold ret. by eauto.
Qed.

Lemma do_command_loop_dom (self : Piezo) (command : list (string * PyVal))
    (result : gmap string string) (tr : Trace) :
  ∃ r tr', do_command_loop self command result tr = (Returned r, tr') ∧
           dom r = dom result ∪ list_to_set command.*1.
Proof.
  revert result tr. induction command as [|[name args] command IH]; intros result tr; simpl.
  - exists result, tr. split; [done|]. by rewrite (right_id_L ∅ (∪)).
  - unfold bind.
    destruct (do_command_entry_returns self result name args tr) as (v & tr1 & ->).
    destruct (IH (<[name := v]> result) tr1) as (r & tr' & -> & Hdom).
    exists r, tr'. split; [done|]. rewrite Hdom, dom_insert_L.
    by rewrite (comm_L (∪) {[name]}), <- (assoc_L (∪)).
Qed.

(** X6: [do_command] never raises, whatever the command and the board, and
    the mapping it returns has exactly the names of the command as keys. *)
Theorem do_command_keys (self : Piezo) (command : list (string * PyVal))
    (t : option PyVal) (tr : Trace) :
  ∃ r tr', do_command self command t tr = (Returned r, tr') ∧
           dom r = list_to_set command.*1.
Proof.
  destruct (do_command_loop_dom self command ∅ tr) as (r & tr' & Hrun & Hdom).
  exists r, tr'. split; [exact Hrun|]. by rewrite Hdom, dom_empty_L, (left_id_L ∅ (∪)).
Qed.

Lemma known_command_false (name : string) :
  known_command name = false → name ≠ "sound_buzzer" ∧ name ≠ "play_harry_potter".
Proof.
  unfold known_command. intros [Hsb Hhp]%orb_false_iff.
  by apply bool_decide_eq_false in Hsb, Hhp.
Qed.

Lemma do_command_loop_skips_unknown (self : Piezo) (command : list (string * PyVal))
    (r1 r2 : gmap string string) (tr : Trace) :
  (do_command_loop self command r1 tr).2 =
  (do_command_loop self (List.filter (λ entry, known_command entry.1) command) r2 tr).2.
Proof.
  revert r1 r2 tr. induction command as [|[name args] command IH]; intros r1 r2 tr.
  - reflexivity.
  - cbn [List.filter fst]. destruct (known_command name) eqn:Hknown.
    + cbn [do_command_loop]. unfold bind.
      destruct (do_command_entry_same self r1 r2 name args tr) as (v & tr' & -> & ->).
      apply IH.
    + apply known_command_false in Hknown as [Hsb Hhp].
      cbn [do_command_loop]. unfold bind.
      rewrite (do_command_entry_unknown self r1 name args tr Hsb Hhp).
      apply IH.
Qed.

(** X7: the names [do_command] does not know never reach the board: the
    calls and waits of a command are those of the command with its unknown
    entries taken out. *)
Theorem do_command_unknown_entries_inert (self : Piezo) (command : list (string * PyVal))
    (t : option PyVal) (tr : Trace) :
  (do_command self command t tr).2 =
  (do_command self (List.filter (λ entry, known_command entry.1) command) t tr).2.
Proof. unfold do_command. apply do_command_loop_skips_unknown. Qed.
End DoCommandMore.

Section DoCommandEntries.
Context {interp : Interpreter}.

(** The "play_harry_potter" entry records its one message whatever the
    melody did. *)
Lemma do_command_entry_play (self : Piezo) (result : gmap string string)
    (args : PyVal) (tr : Trace) :
  ∃ tr', do_command_entry self result "play_harry_potter" args tr =
         (Returned (<["play_harry_potter" := "Played Harry Potter theme song."]> result), tr').
Proof.
  unfold do_command_entry. simpl. unfold try_except at 1, bind.
  destruct (play_harry_potter_any_board_returns self tr) as (tr' & ->). by eauto.
Qed.

Lemma do_command_loop_keeps_played (self : Piezo) (command : list (string * PyVal))
    (result : gmap string string) (tr : Trace) :
  result !! "play_harry_potter" = Some "Played Harry Potter theme song." →
  ∃ r tr', do_command_loop self command result tr = (Returned r, tr') ∧
           r !! "play_harry_potter" = Some "Played Harry Potter theme song.".
Proof.
  revert result tr. induction command as [|[name args] command IH]; intros result tr Hplayed;
    simpl.
  - unfold ret. by eauto.
  - unfold bind. destruct (decide (name = "play_harry_potter")) as [->|Hne].
    + destruct (do_command_entry_play self result args tr) as (tr' & ->).
      apply IH. apply lookup_insert_eq.
    + destruct (do_command_entry_returns self result name args tr) as (v & tr' & ->).
      apply IH. by rewrite lookup_insert_ne.
Qed.

(** X8: a command with a "play_harry_potter" entry always reports "Played
    Harry Potter theme song." under that name: [play_harry_potter] swallows
    its own failures, so the report is the same when the board refused a
    call or when the component holds no board at all. *)
Theorem do_command_always_reports_melody (self : Piezo) (command : list (string * PyVal))
    (args : PyVal) (t : option PyVal) (tr : Trace) :
  ("play_harry_potter", args) ∈ command →
  ∃ r tr', do_command self command t tr = (Returned r, tr') ∧
           r !! "play_harry_potter" = Some "Played Harry Potter theme song.".
Proof.
  intros (pre & post & ->)%list_elem_of_split.
  unfold do_command. rewrite do_command_loop_app.
  destruct (do_command_loop_returns self pre ∅ tr) as (r1 & tr1 & ->).
  cbn [do_command_loop]. unfold bind.
  destruct (do_command_entry_play self r1 args tr1) as (tr2 & ->).
  apply do_command_loop_keeps_played. apply lookup_insert_eq.
Qed.

(** X9: when the arguments of "sound_buzzer" are not a mapping, nothing is
    asked of the board and the entry records the attribute error of
    [args.get]. *)
Theorem do_command_sound_buzzer_args_not_dict (self : Piezo) (args : PyVal)
    (t : option PyVal) (tr : Trace) :
  (∀ d, args ≠ VDict d) →
  do_command self [("sound_buzzer", args)] t tr =
  (Returned {["sound_buzzer" :=
                "Error: '" +:+ type_name args +:+ "' object has no attribute 'get'"]},
   tr).
Proof.
  intros Hnot. destruct args; try reflexivity. by destruct (Hnot d).
Qed.

(** X10: a duty cycle that is [None] or a mapping is rejected by
    [sound_buzzer] before any call, and then fails to be multiplied by 100:
    the entry records the type error of the product and the board is not
    asked anything. *)
Theorem do_command_sound_buzzer_duty_not_multipliable (self : Piezo)
    (d : list (string * PyVal)) (dc : PyVal) (t : option PyVal) (tr : Trace) :
  assoc_get d "duty_cycle" = Some dc →
  (dc = VNone ∨ ∃ x, dc = VDict x) →
  do_command self [("sound_buzzer", VDict d)] t tr =
  (Returned {["sound_buzzer" :=
                "Error: unsupported operand type(s) for *: '" +:+ type_name dc
                +:+ "' and 'int'"]},
   tr).
Proof.
  intros Hget Hdc.
  unfold do_command. cbn [do_command_loop]. unfold bind at 1.
  unfold do_command_entry. simpl. rewrite Hget. simpl.
  unfold try_except, bind, lift, ret, raise. simpl.
  destruct (sound_buzzer_cases self (default_or (assoc_get d "frequency") (VInt 1000))
              (default_or (assoc_get d "duration") (VFloat 1)) dc None tr)
    as [[msg ->] | (b & q & _ & _ & _ & _ & (q' & Hq' & _))].
  - destruct Hdc as [-> | [x ->]]; reflexivity.
  - destruct Hdc as [-> | [x ->]]; discriminate.
Qed.
End DoCommandEntries.

(** A component that holds no board still reports the melody as played. *)
Lemma do_command_always_reports_melody_witness :
  ∃ r tr',
    do_command (interp := fraction_interpreter) (MkPiezo (VStr "12") (inl VNone))
      [("foo", VNone); ("play_harry_potter", VDict [])] None [] = (Returned r, tr') ∧
    r !! "play_harry_potter" = Some "Played Harry Potter theme song.".
Proof.
  apply (do_command_always_reports_melody (interp := fraction_interpreter)
           (MkPiezo (VStr "12") (inl VNone))
           [("foo", VNone); ("play_harry_potter", VDict [])] (VDict []) None []).
  apply list_elem_of_In. simpl. right. left. reflexivity.
Defined.

(** The argument 440 in place of a mapping. *)
Lemma do_command_sound_buzzer_args_not_dict_witness :
  do_command (interp := fraction_interpreter) (piezo_on steady_board)
    [("sound_buzzer", VInt 440)] None [] =
  (Returned {["sound_buzzer" := "Error: 'int' object has no attribute 'get'"]}, []).
Proof.
  apply (do_command_sound_buzzer_args_not_dict (interp := fraction_interpreter)
           (piezo_on steady_board) (VInt 440) None []).
  discriminate.
Defined.

(** A duty cycle of [None]. *)
Lemma do_command_sound_buzzer_duty_not_multipliable_witness :
  do_command (interp := fraction_interpreter) (piezo_on steady_board)
    [("sound_buzzer", VDict [("duty_cycle", VNone)])] None [] =
  (Returned {["sound_buzzer" :=
                "Error: unsupported operand type(s) for *: 'NoneType' and 'int'"]}, []).
Proof.
  apply (do_command_sound_buzzer_duty_not_multipliable (interp := fraction_interpreter)
           (piezo_on steady_board) [("duty_cycle", VNone)] VNone None []).
  - reflexivity.
  - left. reflexivity.
Defined.


(** ** Further properties of the configuration *)



Section ConfigureThenOperate.
Context {interp : Interpreter} {sdk : Sdk}.

(** Whether it returns or raises, [reconfigure] has stored the pin
    attribute by then. *)
Lemma reconfigure_pin (self : Piezo) (attributes : gmap string PbValue)
    (dependencies : gmap ResourceName Resource) :
  pin (reconfigure self attributes dependencies).1 = attrs_get attributes "piezo_pin".
Proof.
  unfold reconfigure.
  destruct (get_resource_name _) as [e|rn]; [done|].
  by destruct (dependencies !! rn) as [[b|c]|].
Qed.

(** A [reconfigure] that returned has found a board under the name the SDK
    gave; one that raised has left something else than a board. *)
Lemma reconfigure_returned (self self' : Piezo) (attributes : gmap string PbValue)
    (dependencies : gmap ResourceName Resource) :
  reconfigure self attributes dependencies = (self', inr tt) →
  ∃ rn b, get_resource_name (attrs_get attributes "board") = inr rn ∧
          dependencies !! rn = Some (BoardResource b) ∧
          self' = MkPiezo (attrs_get attributes "piezo_pin") (inr (BoardResource b)).
Proof.
  unfold reconfigure.
  destruct (get_resource_name _) as [e|rn]; [intros; simplify_eq|].
  destruct (dependencies !! rn) as [[b|c]|] eqn:Hdep; intros; simplify_eq/=.
  by exists rn, b.
Qed.

Lemma reconfigure_raised (self self' : Piezo) (attributes : gmap string PbValue)
    (dependencies : gmap ResourceName Resource) (e : Exn) :
  reconfigure self attributes dependencies = (self', inl e) →
  ∀ b, ¬ configured_with self' b.
Proof.
  unfold reconfigure, configured_with.
  destruct (get_resource_name _) as [e'|rn]; [intros; by simplify_eq/=|].
  destruct (dependencies !! rn) as [[b'|c]|]; intros; by simplify_eq/=.
Qed.

Lemma play_harry_potter_without_board (self : Piezo) (tr : Trace) :
  (∀ b, ¬ configured_with self b) → play_harry_potter self tr = (Returned tt, tr).
Proof.
  unfold play_harry_potter, board_of, configured_with. intros Hnone.
  destruct (board self) as [v|[b|c]]; [done | by destruct (Hnone b) | done].
Qed.



End ConfigureThenOperate.




(** ** Commands in sequence *)

Section DoCommandCompose.
Context {interp : Interpreter}.

(** Starting the loop from a mapping [result] gives what starting it from
    the empty mapping gives, laid over [result]. *)
Lemma do_command_loop_from (self : Piezo) (command : list (string * PyVal))
    (result : gmap string string) (tr : Trace) :
  ∃ r tr', do_command_loop self command ∅ tr = (Returned r, tr') ∧
           do_command_loop self command result tr = (Returned (r ∪ result), tr').
Proof.
  revert result tr. induction command as [|[name args] command IH]; intros result tr.
  - exists ∅, tr. split; [done|]. simpl. unfold ret. by rewrite (left_id_L ∅ (∪)).
  - cbn [do_command_loop]. unfold bind.
    destruct (do_command_entry_same self ∅ result name args tr) as (v & tr1 & -> & ->).
    destruct (IH (<[name := v]> ∅) tr1) as (r & tr' & Hempty & ->).
    destruct (IH (<[name := v]> result) tr1) as (r0 & tr0 & Hempty0 & ->).
    rewrite Hempty in Hempty0. injection Hempty0 as <- <-.
    exists (r ∪ <[name := v]> ∅), tr'. split; [done|].
    by rewrite (insert_union_singleton_l result), insert_empty, (assoc_L (∪)).
Qed.

(** X15: a command run in two parts.  Running the first entries and then
    the others from the trace the first left issues the same calls as the
    whole command, and the whole command returns the second mapping laid
    over the first. *)
Theorem do_command_app (self : Piezo) (first second : list (string * PyVal))
    (t : option PyVal) (tr : Trace) :
  ∃ r1 tr1 r2 tr2,
    do_command self first t tr = (Returned r1, tr1) ∧
    do_command self second t tr1 = (Returned r2, tr2) ∧
    do_command self (first ++ second) t tr = (Returned (r2 ∪ r1), tr2).
Proof.
  unfold do_command.
  destruct (do_command_loop_returns self first ∅ tr) as (r1 & tr1 & Hfirst).
  destruct (do_command_loop_from self second r1 tr1) as (r2 & tr2 & Hsecond & Hboth).
  exists r1, tr1, r2, tr2. split; [exact Hfirst|]. split; [exact Hsecond|].
  by rewrite do_command_loop_app, Hfirst.
Qed.
End DoCommandCompose.

(** X16: the "sound_buzzer" entry reads its three arguments with their
    defaults (1000, 1.0, 0.5), calls [sound_buzzer] once on them and,
    whenever the duty cycle can be multiplied by 100, records the "Buzzer
    activated" message, whatever string [sound_buzzer] returned. *)
Theorem do_command_sound_buzzer_reports_activation {interp : Interpreter}
    (self : Piezo) (d : list (string * PyVal)) (percent : PyVal)
    (t : option PyVal) (tr : Trace) :
  let frequency := default_or (assoc_get d "frequency") (VInt 1000) in
  let duration := default_or (assoc_get d "duration") (VFloat 1) in
  let duty_cycle := default_or (assoc_get d "duty_cycle") (VFloat float_0_5) in
  py_mul_int duty_cycle 100 = inr percent →
  ∃ s tr',
    sound_buzzer self frequency duration duty_cycle None tr = (Returned s, tr') ∧
    do_command self [("sound_buzzer", VDict d)] t tr =
    (Returned {["sound_buzzer" :=
                  "Buzzer activated: " +:+ py_str frequency +:+ "Hz for "
                  +:+ py_str duration +:+ "s with " +:+ py_str percent
                  +:+ "% duty cycle."]},
     tr').
Proof.
  intros frequency duration duty_cycle Hmul.
  destruct (do_command_entry_sound_buzzer self ∅ d percent tr Hmul)
    as (s & tr' & Hrun & Hentry).
  exists s, tr'. split; [exact Hrun|].
  unfold do_command. cbn [do_command_loop]. unfold bind.
  rewrite Hentry. unfold ret. by rewrite insert_empty.
Qed.

(** A duty cycle of 2: [sound_buzzer] refuses it without a call and the
    entry still records the activation, with 200%. *)
Lemma do_command_sound_buzzer_reports_activation_witness :
  ∃ s tr',
    sound_buzzer (interp := fraction_interpreter) (piezo_on steady_board)
      (VInt 1000) (VFloat 1) (VInt 2) None [] = (Returned s, tr') ∧
    do_command (interp := fraction_interpreter) (piezo_on steady_board)
      [("sound_buzzer", VDict [("duty_cycle", VInt 2)])] None [] =
    (Returned {["sound_buzzer" :=
                  "Buzzer activated: 1000Hz for 1/1s with 200% duty cycle."]},
     tr').
Proof.
  apply (do_command_sound_buzzer_reports_activation (interp := fraction_interpreter)
           (piezo_on steady_board) [("duty_cycle", VInt 2)] (VInt 200) None []).
  reflexivity.
Defined.
